(** * body_validator: a shallow embedding of [src/index.ts]

    The library builds validators, pairs of closures [is_valid] and
    [get_messages], from a handful of primitives and combinators.  The
    embedding keeps that shape: a validator is a record of two functions over
    a datatype of JavaScript values, and every combinator is a function on
    such records.

    Conventions of the model.
    - Input values are the data a body parser produces, plus [undefined]:
      scalars, arrays as dense lists of elements, and objects as lists of own
      enumerable string-keyed properties, listed in the order [Object.keys]
      enumerates them ([object_literal] computes that order from the order
      in which the properties were written).
    - [key in shape] and [input[key]] follow the prototype chain.  What an
      object or an array inherits is given by a [Host]: the properties of
      [Object.prototype] and of [Array.prototype].  An array also has its
      [length].  Inherited methods are functions, a kind of value of its own.
    - Objects, arrays and functions carry a reference, which is what [===]
      compares.
    - Numbers are IEEE 754 doubles ([spec_float] of the Standard Library).
    - A [RegExp] is a host object with state: with the global or the sticky
      flag, [test] starts at [lastIndex] and moves it.  It is modelled by the
      host's matcher, the flag, [lastIndex] and the printed form.
    - A [Validator] of the model is a pair of functions, so it stands for a
      validator whose answers do not depend on earlier calls.  The one
      validator of the library with a memory is [regex] over a flagged
      pattern: [make_regex_validator] gives its answers to the next call,
      and [regex_after] the pattern that call leaves behind.  The families
      [integer_free] and [library_built] admit unflagged patterns only. *)

From Stdlib Require Import List String Ascii ZArith Bool Lia SpecFloat DecimalString.
From Stdlib Require Import Permutation DecimalNat NArith.
Import ListNotations.
Local Open Scope string_scope.
Set Warnings "-register-all".

(** ** Host values *)

Inductive value : Type :=
| VUndefined
| VNull
| VBoolean (b : bool)
| VNumber (x : spec_float)
| VString (s : string)
| VObject (ref : nat) (props : list (string * value))
| VArray (ref : nat) (elems : list value)
| VFunction (ref : nat) (source : string).

(** The [typeof] operator. *)
Definition js_typeof (input : value) : string :=
  match input with
  | VUndefined => "undefined"
  | VNull => "object"
  | VBoolean _ => "boolean"
  | VNumber _ => "number"
  | VString _ => "string"
  | VObject _ _ => "object"
  | VArray _ _ => "object"
  | VFunction _ _ => "function"
  end.

(** [!!input]: the host's conversion to a boolean. *)
Definition truthy (input : value) : bool :=
  match input with
  | VUndefined => false
  | VNull => false
  | VBoolean b => b
  | VNumber (S754_zero _) => false
  | VNumber S754_nan => false
  | VNumber _ => true
  | VString s => negb (s =? EmptyString)
  | VObject _ _ => true
  | VArray _ _ => true
  | VFunction _ _ => true
  end.

(** [a === b]: no conversion; numbers compare as doubles; objects, arrays and
    functions by reference. *)
Definition strict_equals (a b : value) : bool :=
  match a, b with
  | VUndefined, VUndefined => true
  | VNull, VNull => true
  | VBoolean x, VBoolean y => Bool.eqb x y
  | VNumber x, VNumber y => SFeqb x y
  | VString x, VString y => (x =? y)
  | VObject r _, VObject r' _ => Nat.eqb r r'
  | VArray r _, VArray r' _ => Nat.eqb r r'
  | VFunction r _, VFunction r' _ => Nat.eqb r r'
  | _, _ => false
  end.

(** A finite double [m * 2^e] has no fractional part when [e] is not negative
    or [2^(-e)] divides [m]. *)
Definition number_is_integral (x : spec_float) : bool :=
  match x with
  | S754_zero _ => true
  | S754_infinity _ => false
  | S754_nan => false
  | S754_finite _ m e =>
      if (0 <=? e)%Z then true else (Z.pos m mod 2 ^ (- e) =? 0)%Z
  end.

(** [Number.isInteger]. *)
Definition Number_isInteger (input : value) : bool :=
  match input with
  | VNumber x => number_is_integral x
  | _ => false
  end.

(** [Array.isArray]. *)
Definition Array_isArray (input : value) : bool :=
  match input with
  | VArray _ _ => true
  | _ => false
  end.

(** The decimal form of an array index, as a template literal prints it. *)
Definition index_string (i : nat) : string :=
  NilZero.string_of_uint (Nat.to_uint i).

(** First binding of [key] in a property list. *)
Fixpoint lookup {A : Type} (key : string) (props : list (string * A)) : option A :=
  match props with
  | [] => None
  | (k, a) :: rest => if key =? k then Some a else lookup key rest
  end.

(** What the host lets every object and every array inherit: the properties
    of [Object.prototype] and of [Array.prototype]. *)
Record Host : Type := {
  Object_prototype : list (string * value);
  Array_prototype : list (string * value)
}.

(** The double of an integer, in the binary64 format. *)
Definition number_of_Z (z : Z) : value :=
  VNumber (binary_normalize 53 1024 z 0 false).

(** Element of an array under a property key: the key has to be the decimal
    form of an index within the array. *)
Definition array_get (elems : list value) (key : string) : option value :=
  match NilZero.uint_of_string key with
  | Some u =>
      let i := Nat.of_uint u in
      if index_string i =? key then nth_error elems i else None
  | None => None
  end.

(** The enumerable own property of an input at a key. *)
Definition own_prop (input : value) (key : string) : option value :=
  match input with
  | VObject _ props => lookup key props
  | VArray _ elems => array_get elems key
  | _ => None
  end.

(** What a property read finds past the enumerable own properties: the
    [length] of an array, then what the prototypes hold. *)
Definition hidden_prop (host : Host) (input : value) (key : string) : option value :=
  match input with
  | VObject _ _ => lookup key (Object_prototype host)
  | VArray _ elems =>
      if key =? "length" then Some (number_of_Z (Z.of_nat (List.length elems)))
      else
        match lookup key (Array_prototype host) with
        | Some v => Some v
        | None => lookup key (Object_prototype host)
        end
  | _ => None
  end.

(** [input[key]]. *)
Definition get_prop (host : Host) (input : value) (key : string) : value :=
  match own_prop input key with
  | Some v => v
  | None =>
      match hidden_prop host input key with
      | Some v => v
      | None => VUndefined
      end
  end.

(** [Object.keys]. *)
Definition Object_keys (input : value) : list string :=
  match input with
  | VObject _ props => map fst props
  | VArray _ elems => map index_string (seq 0 (List.length elems))
  | _ => []
  end.

(** [Object.values], as the list of elements of the array it returns. *)
Definition Object_values (input : value) : list value :=
  match input with
  | VObject _ props => map snd props
  | VArray _ elems => elems
  | _ => []
  end.

(** [Array.prototype.flatMap] with a callback that reads the index. *)
Fixpoint flatMap_from {A B : Type} (f : A -> nat -> list B) (start : nat)
  (l : list A) : list B :=
  match l with
  | [] => []
  | x :: rest => (f x start ++ flatMap_from f (S start) rest)%list
  end.

Definition flatMap_indexed {A B : Type} (f : A -> nat -> list B) (l : list A) : list B :=
  flatMap_from f 0 l.

(** A regular expression of the host, in its current state.
    [match_from i s] is the host's matcher started at position [i] of [s]: the
    end of the match it finds (searching forward from [i], or at [i] itself
    for a sticky pattern), if any. *)
Record RegExp : Type := {
  match_from : nat -> string -> option nat;
  global_or_sticky : bool;
  lastIndex : nat;
  regexp_to_string : string
}.

Definition with_lastIndex (regex : RegExp) (index : nat) : RegExp := {|
  match_from := match_from regex;
  global_or_sticky := global_or_sticky regex;
  lastIndex := index;
  regexp_to_string := regexp_to_string regex
|}.

(** [regex.test(subject)]: the answer, and the pattern as the call leaves it.
    A flagged pattern starts at [lastIndex], which a match moves to its end
    and a failure resets; an unflagged one starts at 0 and keeps no trace. *)
Definition test (regex : RegExp) (subject : string) : bool * RegExp :=
  if global_or_sticky regex then
    match match_from regex (lastIndex regex) subject with
    | Some index => (true, with_lastIndex regex index)
    | None => (false, with_lastIndex regex 0)
    end
  else
    match match_from regex 0 subject with
    | Some _ => (true, regex)
    | None => (false, regex)
    end.

(** The pattern matches somewhere in the subject. *)
Definition pattern_matches (regex : RegExp) (subject : string) : bool :=
  match match_from regex 0 subject with
  | Some _ => true
  | None => false
  end.

(** ** The library *)

Record Validator : Type := {
  is_valid : value -> bool;
  get_messages : value -> string -> list string
}.

(** The one-character string holding a double quote. *)
Definition quote_mark : string := String (ascii_of_nat 34) EmptyString.

Definition double_quote (str : string) : string := quote_mark ++ str ++ quote_mark.

Definition is_string (input : value) : bool := js_typeof input =? "string".

Definition string_validator : Validator := {|
  is_valid := is_string;
  get_messages := fun input name =>
    if is_string input then [] else [ double_quote name ++ " is not a string" ]
|}.

Definition is_number (input : value) : bool := js_typeof input =? "number".

Definition number_validator : Validator := {|
  is_valid := is_number;
  get_messages := fun input name =>
    if is_number input then [] else [ double_quote name ++ " is not a number" ]
|}.

Definition is_integer (input : value) : bool := Number_isInteger input.

Definition integer_validator : Validator := {|
  is_valid := is_integer;
  get_messages := fun input name =>
    if is_number input then [] else [ double_quote name ++ " is not an integer" ]
|}.

Definition is_boolean (input : value) : bool := js_typeof input =? "boolean".

Definition boolean_validator : Validator := {|
  is_valid := is_boolean;
  get_messages := fun input name =>
    if is_boolean input then [] else [ double_quote name ++ " is not a boolean" ]
|}.

Definition is_object (input : value) : bool :=
  truthy input && (js_typeof input =? "object").

(** A shape is an object whose properties are validators; like an input
    object it is kept as its property list in [Object.keys] order. *)
Definition ValidatorShape : Type := list (string * Validator).

Definition keys_plz (object : value) : list string := Object_keys object.

(** [keys_plz] at a shape. *)
Definition shape_keys (shape : ValidatorShape) : list string := map fst shape.

(** [key] is one of the shape's own keys. *)
Definition declared (key : string) (shape : ValidatorShape) : bool :=
  existsb (String.eqb key) (shape_keys shape).

(** [key in shape]: an own key of the shape, or a property that the shape,
    an object literal, inherits from [Object.prototype]. *)
Definition key_in (host : Host) (key : string) (shape : ValidatorShape) : bool :=
  declared key shape || existsb (String.eqb key) (map fst (Object_prototype host)).

(** [values_plz(object)] builds a new array.  Nothing else holds a reference
    to it, and [0] stands for that reference. *)
Definition values_plz (object : value) : value := VArray 0 (Object_values object).

(** In both closures [shape[key]] is read at a key taken from the shape's own
    keys, where [lookup] finds a validator; the [None] branches are never
    taken (lemma [lookup_shape_key]). *)
Definition make_object_validator (host : Host) (shape : ValidatorShape) : Validator := {|
  is_valid := fun input =>
    if negb (is_object input) then false
    else
      let all_input_keys_exist_in_shape :=
        forallb (fun key => key_in host key shape) (keys_plz input) in
      if negb all_input_keys_exist_in_shape then false
      else
        forallb (fun key =>
                   match lookup key shape with
                   | Some validator => is_valid validator (get_prop host input key)
                   | None => false
                   end) (shape_keys shape);
  get_messages := fun input name =>
    let quoted_name := double_quote name in
    if negb (is_object input) then [ quoted_name ++ " is not an object" ]
    else
      let keys_that_dont_exist_in_shape :=
        filter (fun key => negb (key_in host key shape)) (keys_plz input) in
      let property_messages :=
        flat_map (fun key =>
                    match lookup key shape with
                    | Some validator => get_messages validator (get_prop host input key) key
                    | None => []
                    end) (shape_keys shape) in
      app
        (map (fun key => quoted_name ++ " should not have a property named "
                           ++ double_quote key ++ " ")
             keys_that_dont_exist_in_shape)
        (map (fun message => quoted_name ++ "." ++ message) property_messages)
|}.

(** The elements of an input that passed [Array.isArray]. *)
Definition elements (input : value) : list value :=
  match input with
  | VArray _ elems => elems
  | _ => []
  end.

Definition make_array_validator (element_validator : Validator) : Validator := {|
  is_valid := fun input =>
    if negb (Array_isArray input) then false
    else forallb (is_valid element_validator) (elements input);
  get_messages := fun input name =>
    if negb (Array_isArray input) then [ double_quote name ++ " is not an array" ]
    else
      flatMap_indexed
        (fun element index =>
           get_messages element_validator element
             (name ++ "[" ++ index_string index ++ "]"))
        (elements input)
|}.

Definition make_object_values_validator (element_validator : Validator) : Validator :=
  let array_validator := make_array_validator element_validator in
  {|
    is_valid := fun input =>
      if negb (is_object input) then false
      else is_valid array_validator (values_plz input);
    get_messages := fun input name =>
      if negb (is_object input) then [ double_quote name ++ " is not an object" ]
      else get_messages array_validator (values_plz input) name
  |}.

Definition one_of (validators : list Validator) : Validator :=
  let is_valid' := fun input =>
    existsb (fun validator => is_valid validator input) validators in
  {|
    is_valid := is_valid';
    get_messages := fun input name =>
      if negb (is_valid' input) then
        let messages :=
          flat_map (fun validator => get_messages validator input name)
            (filter (fun validator => negb (is_valid validator input)) validators) in
        [ double_quote name ++ ": " ++ String.concat ", or " messages ]
      else []
  |}.

Definition null_validator : Validator := {|
  is_valid := fun input => strict_equals input VNull;
  get_messages := fun input name =>
    if negb (strict_equals input VNull) then [ double_quote name ++ " should be null" ]
    else []
|}.

Definition nullable (validator : Validator) : Validator :=
  one_of [ validator; null_validator ].

(** The answer of [regex.test(input)], which both closures call on a string
    only. *)
Definition RegExp_test (regex : RegExp) (input : value) : bool :=
  match input with
  | VString s => fst (test regex s)
  | _ => false
  end.

(** The pattern after one call of either closure on [input]: each calls
    [regex.test] once when the input is a string, and not at all otherwise. *)
Definition regex_after (regex : RegExp) (input : value) : RegExp :=
  match input with
  | VString s => snd (test regex s)
  | _ => regex
  end.

(** [custom_message || fallback]: an omitted argument is [undefined], and the
    empty string is falsy as well. *)
Definition message_or (custom_message : option string) (fallback : string) : string :=
  match custom_message with
  | Some message => if message =? EmptyString then fallback else message
  | None => fallback
  end.

Definition make_regex_validator (regex : RegExp) (custom_message : option string)
  : Validator := {|
  is_valid := fun input => (js_typeof input =? "string") && RegExp_test regex input;
  get_messages := fun input name =>
    if negb (js_typeof input =? "string") || negb (RegExp_test regex input) then
      [ message_or custom_message
          (double_quote name ++ " should be a string that matches "
             ++ double_quote (regexp_to_string regex)) ]
    else []
|}.

Definition undefined_validator : Validator := {|
  is_valid := fun input => strict_equals input VUndefined;
  get_messages := fun input name =>
    if negb (strict_equals input VUndefined) then
      [ double_quote name ++ " should be undefined" ]
    else []
|}.

Section Exact.

(** The host's printing of a double, [Number.prototype.toString]. *)
Variable number_to_string : spec_float -> string.

(** The string a template literal substitutes for a value. *)
Fixpoint to_string (v : value) : string :=
  match v with
  | VUndefined => "undefined"
  | VNull => "null"
  | VBoolean true => "true"
  | VBoolean false => "false"
  | VNumber x => number_to_string x
  | VString s => s
  | VObject _ _ => "[object Object]"
  | VArray _ elems =>
      String.concat ","
        (map (fun element =>
                match element with
                | VUndefined => EmptyString
                | VNull => EmptyString
                | _ => to_string element
                end) elems)
  | VFunction _ source => source
  end.

Definition make_exact_validator (value : value) : Validator := {|
  is_valid := fun input => strict_equals input value;
  get_messages := fun input name =>
    if negb (strict_equals input value) then
      [ double_quote name ++ " should be " ++ quote_mark ++ to_string value ++ quote_mark ]
    else []
|}.

End Exact.

Definition optional (validator : Validator) : Validator :=
  one_of [ validator; undefined_validator ].

(** ** The consistency law *)

(** [is_valid] accepts an input exactly when [get_messages] has nothing to
    say about it, under every name. *)
Definition consistent (v : Validator) : Prop :=
  forall input name, is_valid v input = true <-> get_messages v input name = [].

(** The double nearest to 3.4: [7656119366529843 * 2^(-51)]. *)
Definition three_point_four : value :=
  VNumber (S754_finite false 7656119366529843 (-51)).

(** The matcher of the pattern [howdy]: a search for the substring. *)
Definition howdy_from (index : nat) (subject : string) : option nat :=
  match String.index index "howdy" subject with
  | Some found => Some (found + 5)
  | None => None
  end.

(** The pattern [/howdy/] of the test suite. *)
Definition howdy : RegExp := {|
  match_from := howdy_from;
  global_or_sticky := false;
  lastIndex := 0;
  regexp_to_string := "/howdy/"
|}.

(** The same pattern with the global flag, [/howdy/g], as created. *)
Definition howdy_g : RegExp := {|
  match_from := howdy_from;
  global_or_sticky := true;
  lastIndex := 0;
  regexp_to_string := "/howdy/g"
|}.

(** [/howdy/g] after it has accepted the string [howdy]. *)
Definition howdy_g_used : RegExp := regex_after howdy_g (VString "howdy").

(** The schema and the rejected input of the README. *)
Definition hero_shape : ValidatorShape :=
  [ ("name", string_validator);
    ("age", number_validator);
    ("cool", optional boolean_validator);
    ("powers", make_array_validator string_validator) ].

Definition superman : value := VObject 1 [ ("name", VString "Superman") ].

(** The schema and the rejected input of the test of the output messages. *)
Definition test_shape : ValidatorShape :=
  [ ("cool_number", number_validator);
    ("cool_string", string_validator);
    ("cool_bool", boolean_validator);
    ("other_number", optional number_validator);
    ("other_string", optional string_validator);
    ("other_bool", optional boolean_validator);
    ("cool_array", make_array_validator string_validator);
    ("other_array", optional (make_array_validator number_validator)) ].

Definition invalid_input : value :=
  VObject 1
    [ ("cool_number", VString "WRONG");
      ("cool_string", VString "wat");
      ("other_number", number_of_Z 4);
      ("other_array", VArray 2 [ VString "WRONG"; number_of_Z 2 ]);
      ("WRONG", VString ":-o") ].

(** A native method of the host. *)
Definition native (ref : nat) (name : string) : string * value :=
  (name, VFunction ref ("function " ++ name ++ "() { [native code] }")).

(** The properties that ECMAScript puts on [Object.prototype] and on
    [Array.prototype].  Read on an object, [__proto__] is [Object.prototype]
    itself, an object without enumerable properties; read on an array it is
    [Array.prototype], an empty array. *)
Definition standard_host : Host := {|
  Object_prototype :=
    [ native 1001 "constructor"; native 1002 "__defineGetter__";
      native 1003 "__defineSetter__"; native 1004 "hasOwnProperty";
      native 1005 "__lookupGetter__"; native 1006 "__lookupSetter__";
      native 1007 "isPrototypeOf"; native 1008 "propertyIsEnumerable";
      native 1009 "toString"; native 1010 "valueOf";
      ("__proto__", VObject 1000 []); native 1011 "toLocaleString" ];
  Array_prototype :=
    [ native 1101 "constructor"; native 1102 "at"; native 1103 "concat";
      native 1104 "copyWithin"; native 1105 "fill"; native 1106 "find";
      native 1107 "findIndex"; native 1108 "findLast"; native 1109 "findLastIndex";
      native 1110 "lastIndexOf"; native 1111 "pop"; native 1112 "push";
      native 1113 "reverse"; native 1114 "shift"; native 1115 "unshift";
      native 1116 "slice"; native 1117 "sort"; native 1118 "splice";
      native 1119 "includes"; native 1120 "indexOf"; native 1121 "join";
      native 1122 "keys"; native 1123 "entries"; native 1124 "values";
      native 1125 "forEach"; native 1126 "filter"; native 1127 "flat";
      native 1128 "flatMap"; native 1129 "map"; native 1130 "every";
      native 1131 "some"; native 1132 "reduce"; native 1133 "reduceRight";
      native 1134 "toLocaleString"; native 1135 "toString";
      native 1136 "toReversed"; native 1137 "toSorted"; native 1138 "toSpliced";
      native 1139 "with"; ("__proto__", VArray 1100 []) ]
|}.

(** A property key that is an array index: the decimal form of an integer
    below [2^32 - 1]. *)
Definition array_index (key : string) : option N :=
  match NilZero.uint_of_string key with
  | Some u =>
      let n := N.of_uint u in
      if (NilZero.string_of_uint (N.to_uint n) =? key) && (n <? 4294967295)%N
      then Some n
      else None
  | None => None
  end.

(** Writing a property: a key the object has keeps its place, a new key
    goes last. *)
Fixpoint set_property {A : Type} (key : string) (a : A) (props : list (string * A))
  : list (string * A) :=
  match props with
  | [] => [ (key, a) ]
  | (k, b) :: rest =>
      if key =? k then (k, a) :: rest else (k, b) :: set_property key a rest
  end.

Fixpoint insert_by_index {A : Type} (n : N) (a : A) (sorted : list (N * A))
  : list (N * A) :=
  match sorted with
  | [] => [ (n, a) ]
  | (m, b) :: rest =>
      if (n <? m)%N then (n, a) :: sorted else (m, b) :: insert_by_index n a rest
  end.

(** The order in which the host enumerates own properties: array indices in
    ascending order, then the other keys in the order of their creation. *)
Definition own_property_order {A : Type} (props : list (string * A)) : list (string * A) :=
  let indexed :=
    fold_left (fun sorted property =>
                 match array_index (fst property) with
                 | Some n => insert_by_index n property sorted
                 | None => sorted
                 end) props [] in
  app (map snd indexed)
      (filter (fun property =>
                 match array_index (fst property) with
                 | Some _ => false
                 | None => true
                 end) props).

(** The property list, in [Object.keys] order, of the object that an object
    literal (or a parsed body) creates from the properties as written. *)
Definition object_literal {A : Type} (written : list (string * A)) : list (string * A) :=
  own_property_order
    (fold_left (fun props property => set_property (fst property) (snd property) props)
               written []).


(** The validators that the library builds, [integer_validator] included,
    over patterns that have neither the global nor the sticky flag. *)
Inductive library_built (host : Host) (number_to_string : spec_float -> string)
  : Validator -> Prop :=
| built_string : library_built host number_to_string string_validator
| built_number : library_built host number_to_string number_validator
| built_integer : library_built host number_to_string integer_validator
| built_boolean : library_built host number_to_string boolean_validator
| built_null : library_built host number_to_string null_validator
| built_exact (v : value) :
    library_built host number_to_string (make_exact_validator number_to_string v)
| built_regex (regex : RegExp) (custom_message : option string) :
    global_or_sticky regex = false ->
    library_built host number_to_string (make_regex_validator regex custom_message)
| built_object (shape : ValidatorShape) :
    (forall key validator,
        In (key, validator) shape -> library_built host number_to_string validator) ->
    library_built host number_to_string (make_object_validator host shape)
| built_array (element_validator : Validator) :
    library_built host number_to_string element_validator ->
    library_built host number_to_string (make_array_validator element_validator)
| built_object_values (element_validator : Validator) :
    library_built host number_to_string element_validator ->
    library_built host number_to_string (make_object_values_validator element_validator)
| built_one_of (validators : list Validator) :
    (forall validator, In validator validators ->
                       library_built host number_to_string validator) ->
    library_built host number_to_string (one_of validators)
| built_nullable (validator : Validator) :
    library_built host number_to_string validator ->
    library_built host number_to_string (nullable validator)
| built_optional (validator : Validator) :
    library_built host number_to_string validator ->
    library_built host number_to_string (optional validator).

(** No message for an accepted input: one half of the consistency law. *)
Definition quiet_on_valid (v : Validator) : Prop :=
  forall input name, is_valid v input = true -> get_messages v input name = [].

(** An enumeration of strings, as the README writes it:
    [one_of(exact('GET'), exact('POST'), ...)]. *)
Definition string_enum (number_to_string : spec_float -> string)
  (choices : list string) : Validator :=
  one_of (map (fun choice => make_exact_validator number_to_string (VString choice))
              choices).

(** The double that is not a number. *)
Definition NaN : value := VNumber S754_nan.

(** * Facts about lists and property lists *)

Lemma flat_map_nil_iff {A B : Type} (f : A -> list B) (l : list A) :
  flat_map f l = [] <-> (forall a, In a l -> f a = []).
Proof.
  induction l as [| a l IH]; simpl.
  - split; [ intros _ a [] | reflexivity ].
  - split.
    + intros H. apply app_eq_nil in H. destruct H as [Ha Hl].
      intros b [<- | Hb]; [ exact Ha | now apply IH ].
    + intros H. rewrite (H a (or_introl eq_refl)). simpl.
      apply IH. intros b Hb. apply H. now right.
Qed.

Lemma filter_negb_nil_iff {A : Type} (p : A -> bool) (l : list A) :
  filter (fun a => negb (p a)) l = [] <-> forallb p l = true.
Proof.
  induction l as [| a l IH]; simpl.
  - tauto.
  - destruct (p a); simpl.
    + exact IH.
    + split; discriminate.
Qed.

Lemma map_nil_iff {A B : Type} (f : A -> B) (l : list A) :
  map f l = [] <-> l = [].
Proof. destruct l; simpl; split; intros H; try reflexivity; discriminate. Qed.

Lemma app_nil_iff {A : Type} (l l' : list A) :
  app l l' = [] <-> l = [] /\ l' = [].
Proof.
  split.
  - apply app_eq_nil.
  - intros [-> ->]. reflexivity.
Qed.

Lemma flat_map_ext_in' {A B : Type} (f g : A -> list B) (l : list A) :
  (forall a, In a l -> f a = g a) -> flat_map f l = flat_map g l.
Proof.
  induction l as [| a l IH]; simpl; intros H.
  - reflexivity.
  - rewrite (H a (or_introl eq_refl)). f_equal. apply IH.
    intros b Hb. apply H. now right.
Qed.

Lemma flat_map_map {A B C : Type} (f : B -> list C) (g : A -> B) (l : list A) :
  flat_map f (map g l) = flat_map (fun a => f (g a)) l.
Proof.
  induction l as [| a l IH]; simpl; [ reflexivity | now rewrite IH ].
Qed.


(** [flatMap] visits the elements at the indices [start], [start + 1], ... *)
Lemma flatMap_from_shift {A B : Type} (f : A -> nat -> list B) (start : nat) (l : list A) :
  flatMap_from f (S start) l = flatMap_from (fun a i => f a (S i)) start l.
Proof.
  revert start. induction l as [| a l IH]; simpl; intros start.
  - reflexivity.
  - now rewrite IH.
Qed.

Lemma flatMap_indexed_seq {A B : Type} (f : A -> nat -> list B) (d : A) (l : list A) :
  flatMap_indexed f l =
  flat_map (fun i => f (nth i l d) i) (seq 0 (List.length l)).
Proof.
  unfold flatMap_indexed. revert f.
  induction l as [| a l IH]; intros f; simpl.
  - reflexivity.
  - f_equal. rewrite flatMap_from_shift, IH, <- seq_shift, flat_map_map.
    reflexivity.
Qed.

Lemma existsb_eqb_In (key : string) (keys : list string) :
  existsb (String.eqb key) keys = true <-> In key keys.
Proof.
  rewrite existsb_exists. split.
  - intros [k [Hk Heq]]. apply String.eqb_eq in Heq. now subst.
  - intros H. exists key. split; [ exact H | apply String.eqb_refl ].
Qed.

Lemma declared_spec (key : string) (shape : ValidatorShape) :
  declared key shape = true <-> In key (shape_keys shape).
Proof. apply existsb_eqb_In. Qed.

(** What [key in shape] says: the key is one of the shape's own, or one that
    [Object.prototype] holds. *)
Lemma key_in_spec (host : Host) (key : string) (shape : ValidatorShape) :
  key_in host key shape = true <->
  In key (shape_keys shape) \/ In key (map fst (Object_prototype host)).
Proof.
  unfold key_in. now rewrite orb_true_iff, declared_spec, existsb_eqb_In.
Qed.

Lemma key_in_false_not_declared (host : Host) (key : string) (shape : ValidatorShape) :
  key_in host key shape = false -> ~ In key (shape_keys shape).
Proof.
  intros H Hin. assert (Ht : key_in host key shape = true).
  { apply key_in_spec. now left. }
  congruence.
Qed.

Lemma lookup_shape_key {A : Type} (key : string) (props : list (string * A)) :
  In key (map fst props) -> exists a, lookup key props = Some a.
Proof.
  induction props as [| [k a] rest IH]; simpl.
  - intros [].
  - intros H. destruct (key =? k) eqn:E.
    + now exists a.
    + apply IH. destruct H as [H | H]; [ | exact H ].
      subst. rewrite String.eqb_refl in E. discriminate.
Qed.

Lemma lookup_Some_in {A : Type} (key : string) (props : list (string * A)) (a : A) :
  lookup key props = Some a -> In (key, a) props.
Proof.
  induction props as [| [k b] rest IH]; simpl.
  - discriminate.
  - destruct (key =? k) eqn:E.
    + intros [= ->]. apply String.eqb_eq in E. subst. now left.
    + intros H. right. now apply IH.
Qed.

Lemma lookup_None_not_in {A : Type} (key : string) (props : list (string * A)) :
  lookup key props = None -> ~ In key (map fst props).
Proof.
  intros H Hin. apply lookup_shape_key in Hin. destruct Hin as [a Ha].
  congruence.
Qed.

(** In a property list without a repeated key, every pair is the binding of
    its key. *)
Lemma lookup_NoDup {A : Type} (props : list (string * A)) (key : string) (a : A) :
  NoDup (map fst props) -> In (key, a) props -> lookup key props = Some a.
Proof.
  induction props as [| [k b] rest IH]; simpl.
  - intros _ [].
  - intros Hnd Hin. inversion Hnd as [| ? ? Hk Hrest]; subst.
    destruct Hin as [Heq | Hin].
    + inversion Heq; subst. now rewrite String.eqb_refl.
    + destruct (key =? k) eqn:E.
      * apply String.eqb_eq in E. subst. exfalso. apply Hk.
        apply (in_map fst) in Hin. exact Hin.
      * now apply IH.
Qed.





(** * The consistency law, validator by validator *)






Lemma undefined_validator_consistent : consistent undefined_validator.
Proof.
  intros input name. simpl. destruct (strict_equals input VUndefined); simpl;
    split; congruence.
Qed.










(** C1 (the consistency law), at the integer validator: 3.4 is a number, so
    [get_messages] returns no message for it, while [is_valid] rejects it
    for its fractional part.  The law fails there. *)
Theorem integer_validator_inconsistent :
  is_valid integer_validator three_point_four = false /\
  get_messages integer_validator three_point_four "n" = [] /\
  ~ consistent integer_validator.
Proof.
  split; [ reflexivity | split; [ reflexivity | ] ].
  intros Hc. specialize (Hc three_point_four "n").
  destruct Hc as [_ Hc]. specialize (Hc eq_refl). discriminate Hc.
Qed.

(** C2: the integer validator accepts exactly the numbers without a
    fractional part, while its message depends on the number check alone:
    one message for an input that is not a number, none for any number. *)
Theorem integer_validator_spec :
  (forall input,
      is_valid integer_validator input = true <->
      exists x, input = VNumber x /\ number_is_integral x = true) /\
  (forall input name,
      get_messages integer_validator input name
        = [ double_quote name ++ " is not an integer" ] <->
      ~ exists x, input = VNumber x) /\
  (forall x name, get_messages integer_validator (VNumber x) name = []).
Proof.
  split; [ | split ].
  - intros input. simpl. unfold is_integer, Number_isInteger. split.
    + destruct input; try discriminate. intros H. now exists x.
    + intros [x [-> H]]. exact H.
  - intros input name. simpl. split.
    + intros H [x ->]. discriminate H.
    + intros H. destruct input; try reflexivity.
      exfalso. apply H. now exists x.
  - reflexivity.
Qed.


(** * The object combinator *)









(** * The union combinator *)

Lemma filter_rejecting_all {A : Type} (p : A -> bool) (l : list A) :
  existsb p l = false -> filter (fun a => negb (p a)) l = l.
Proof.
  induction l as [| a l IH]; simpl.
  - reflexivity.
  - destruct (p a); simpl; [ discriminate | ].
    intros H. now rewrite IH.
Qed.

Lemma existsb_false_iff {A : Type} (p : A -> bool) (l : list A) :
  existsb p l = false <-> (forall a, In a l -> p a = false).
Proof.
  induction l as [| a l IH]; simpl.
  - split; [ intros _ a [] | reflexivity ].
  - rewrite orb_false_iff, IH. split.
    + intros [Ha Hl] b [<- | Hb]; [ exact Ha | now apply Hl ].
    + intros H. split; [ apply H; now left | intros b Hb; apply H; now right ].
Qed.

(** C5: [one_of] accepts an input when one of its alternatives does; when
    none does, its one message is the quoted name, a colon, and the messages
    of all the alternatives, in their order, joined by [", or "]; when one
    does, there is no message. *)
Theorem one_of_spec (validators : list Validator) (input : value) (name : string) :
  (is_valid (one_of validators) input = true <->
     exists validator, In validator validators /\ is_valid validator input = true) /\
  ((forall validator, In validator validators -> is_valid validator input = false) ->
   get_messages (one_of validators) input name =
   [ double_quote name ++ ": "
       ++ String.concat ", or "
            (flat_map (fun validator => get_messages validator input name) validators) ]) /\
  ((exists validator, In validator validators /\ is_valid validator input = true) ->
   get_messages (one_of validators) input name = []).
Proof.
  split; [ | split ].
  - simpl. apply existsb_exists.
  - intros Hnone. apply existsb_false_iff in Hnone. simpl.
    rewrite Hnone. simpl. now rewrite (filter_rejecting_all _ _ Hnone).
  - intros Hsome. apply existsb_exists in Hsome. simpl. now rewrite Hsome.
Qed.

Lemma one_of_witness :
  get_messages
    (one_of [ make_exact_validator (fun _ => "0") (VString "GET");
              make_exact_validator (fun _ => "0") (VString "POST") ])
    (VString "PUT") "method" =
  [ double_quote "method" ++ ": "
      ++ double_quote "method" ++ " should be " ++ double_quote "GET"
      ++ ", or "
      ++ double_quote "method" ++ " should be " ++ double_quote "POST" ].
Proof.
  rewrite (proj1 (proj2 (one_of_spec _ (VString "PUT") "method"))).
  - reflexivity.
  - intros validator [<- | [<- | []]]; reflexivity.
Defined.

(** * The array combinator *)

(** C6: [array(e)] rejects what is not an array and accepts an array when
    [e] accepts each element; its messages are the one message that the
    input is not an array, or else the messages of [e] for the elements in
    ascending index order, element [i] under the name [n[i]].  The empty
    array is valid and has no messages. *)
Theorem array_validator_spec (element_validator : Validator) :
  (forall input,
      (forall ref elems, input <> VArray ref elems) ->
      is_valid (make_array_validator element_validator) input = false) /\
  (forall ref elems,
      is_valid (make_array_validator element_validator) (VArray ref elems) = true <->
      (forall element, In element elems -> is_valid element_validator element = true)) /\
  (forall ref, is_valid (make_array_validator element_validator) (VArray ref []) = true) /\
  (forall input name,
      (forall ref elems, input <> VArray ref elems) ->
      get_messages (make_array_validator element_validator) input name =
      [ double_quote name ++ " is not an array" ]) /\
  (forall ref elems name,
      get_messages (make_array_validator element_validator) (VArray ref elems) name =
      flat_map (fun i =>
                  get_messages element_validator (nth i elems VUndefined)
                    (name ++ "[" ++ index_string i ++ "]"))
               (seq 0 (List.length elems))) /\
  (forall ref name,
      get_messages (make_array_validator element_validator) (VArray ref []) name = []).
Proof.
  split; [ | split; [ | split; [ | split; [ | split ] ] ] ].
  - intros input H. destruct input; try reflexivity. now destruct (H ref elems).
  - intros ref elems. simpl. apply forallb_forall.
  - reflexivity.
  - intros input name H. destruct input; try reflexivity.
    now destruct (H ref elems).
  - intros ref elems name. simpl.
    apply (flatMap_indexed_seq
             (fun element index =>
                get_messages element_validator element
                  (name ++ "[" ++ index_string index ++ "]"))).
  - reflexivity.
Qed.

Lemma array_validator_witness :
  is_valid (make_array_validator string_validator) (VBoolean true) = false /\
  get_messages (make_array_validator string_validator)
    (VArray 1 [ VString "a"; number_of_Z 1 ]) "list" =
  [ double_quote "list[1]" ++ " is not a string" ].
Proof.
  split.
  - apply (proj1 (array_validator_spec string_validator)). discriminate.
  - reflexivity.
Defined.

(** * Nullable and optional *)

(** C7: [nullable(v)] is [one_of(v, null_validator)] and [optional(v)] is
    [one_of(v, undefined_validator)], in both operations.  Spelled out:
    either accepts what [v] accepts and its own sentinel, and on a rejected
    input answers with the one enveloped message that joins the messages of
    [v] with the sentinel's.  [optional(number)] accepts [undefined] and not
    [null]; [nullable(number)] accepts [null] and not [undefined]. *)
Theorem nullable_optional_spec :
  (forall validator input name,
      is_valid (nullable validator) input
        = is_valid (one_of [ validator; null_validator ]) input /\
      get_messages (nullable validator) input name
        = get_messages (one_of [ validator; null_validator ]) input name /\
      is_valid (optional validator) input
        = is_valid (one_of [ validator; undefined_validator ]) input /\
      get_messages (optional validator) input name
        = get_messages (one_of [ validator; undefined_validator ]) input name) /\
  (forall validator input,
      is_valid (nullable validator) input
        = is_valid validator input || strict_equals input VNull /\
      is_valid (optional validator) input
        = is_valid validator input || strict_equals input VUndefined) /\
  (forall validator input name,
      (is_valid (nullable validator) input = false ->
       get_messages (nullable validator) input name =
       [ double_quote name ++ ": "
           ++ String.concat ", or "
                (app (get_messages validator input name)
                     [ double_quote name ++ " should be null" ]) ]) /\
      (is_valid (optional validator) input = false ->
       get_messages (optional validator) input name =
       [ double_quote name ++ ": "
           ++ String.concat ", or "
                (app (get_messages validator input name)
                     [ double_quote name ++ " should be undefined" ]) ])) /\
  is_valid (optional number_validator) VUndefined = true /\
  is_valid (optional number_validator) VNull = false /\
  is_valid (nullable number_validator) VNull = true /\
  is_valid (nullable number_validator) VUndefined = false.
Proof.
  split; [ | split; [ | split ] ].
  - intros validator input name. repeat split; reflexivity.
  - intros validator input. simpl. now rewrite !orb_false_r.
  - intros validator input name. simpl. rewrite !orb_false_r.
    split; intros H; rewrite H; apply orb_false_iff in H; destruct H as [Hv Hs];
      simpl; rewrite Hv, Hs; simpl; rewrite Hs; simpl; rewrite ?app_nil_r; reflexivity.
  - repeat split; reflexivity.
Qed.

(** * The object-values combinator *)

(** C8: [object_values(e)] rejects what is not an object, with the single
    message that the input is not an object; on an object it is the array
    combinator run on the sequence of the object's values, under the
    object's own name, so the message of value [i] carries the path [n[i]].
    The empty object is valid. *)
Theorem object_values_spec (element_validator : Validator) :
  (forall input,
      is_object input = false ->
      is_valid (make_object_values_validator element_validator) input = false) /\
  (forall input name,
      is_object input = false ->
      get_messages (make_object_values_validator element_validator) input name =
      [ double_quote name ++ " is not an object" ]) /\
  (forall input name,
      is_object input = true ->
      is_valid (make_object_values_validator element_validator) input
        = is_valid (make_array_validator element_validator) (values_plz input) /\
      get_messages (make_object_values_validator element_validator) input name
        = get_messages (make_array_validator element_validator) (values_plz input) name) /\
  (forall ref props, values_plz (VObject ref props) = VArray 0 (map snd props)) /\
  (forall ref props name,
      get_messages (make_object_values_validator element_validator)
        (VObject ref props) name =
      flat_map (fun i =>
                  get_messages element_validator (nth i (map snd props) VUndefined)
                    (name ++ "[" ++ index_string i ++ "]"))
               (seq 0 (List.length props))) /\
  (forall ref name,
      is_valid (make_object_values_validator element_validator) (VObject ref []) = true /\
      get_messages (make_object_values_validator element_validator) (VObject ref []) name
        = []).
Proof.
  split; [ | split; [ | split; [ | split; [ | split ] ] ] ].
  - intros input H. simpl. now rewrite H.
  - intros input name H. simpl. now rewrite H.
  - intros input name H. simpl. now rewrite H.
  - reflexivity.
  - intros ref props name. simpl.
    rewrite <- (length_map snd props).
    apply (flatMap_indexed_seq
             (fun element index =>
                get_messages element_validator element
                  (name ++ "[" ++ index_string index ++ "]"))).
  - intros ref name. split; reflexivity.
Qed.

Lemma object_values_witness :
  is_valid (make_object_values_validator string_validator) (VString "no") = false /\
  get_messages (make_object_values_validator string_validator)
    (VObject 1 [ ("hello", VString "darkness"); ("non_string", number_of_Z 3) ]) "o" =
  get_messages (make_array_validator string_validator)
    (VArray 0 [ VString "darkness"; number_of_Z 3 ]) "o".
Proof.
  split.
  - apply (proj1 (object_values_spec string_validator)). reflexivity.
  - apply (proj1 (proj2 (proj2 (object_values_spec string_validator)))). reflexivity.
Defined.

(** C10: on an array, [object_values(e)] and [array(e)] give the same
    verdict and the same messages: the array passes the is-object check and
    its values are its elements in index order.  So [object_values(e)]
    accepts an array exactly when [e] accepts all its elements. *)
Theorem object_values_on_arrays (element_validator : Validator)
  (ref : nat) (elems : list value) (name : string) :
  is_object (VArray ref elems) = true /\
  Object_values (VArray ref elems) = elems /\
  is_valid (make_object_values_validator element_validator) (VArray ref elems)
    = is_valid (make_array_validator element_validator) (VArray ref elems) /\
  get_messages (make_object_values_validator element_validator) (VArray ref elems) name
    = get_messages (make_array_validator element_validator) (VArray ref elems) name /\
  (is_valid (make_object_values_validator element_validator) (VArray ref elems) = true <->
   (forall element, In element elems -> is_valid element_validator element = true)).
Proof.
  repeat split; simpl; intros H; now apply forallb_forall.
Qed.

(** * The regex validator *)

(** An unflagged pattern answers whether it matches somewhere, and is left
    as it was. *)
Lemma test_unflagged (regex : RegExp) (subject : string) :
  global_or_sticky regex = false ->
  test regex subject = (pattern_matches regex subject, regex).
Proof.
  intros Hflag. unfold test, pattern_matches. rewrite Hflag.
  now destruct (match_from regex 0 subject).
Qed.

(** C9, as stated, fails in two ways.  At the empty custom message: [||]
    takes the empty string for a missing argument, and the generated message
    is returned.  And at a pattern with the global flag: once [/howdy/g] has
    accepted a string, [lastIndex] stands at the end of the match, so the
    next call rejects the same string, which the pattern matches; the call
    after that finds the match again, so a rejected input may be followed by
    no message at all. *)
Lemma regex_validator_counterexamples :
  (is_valid (make_regex_validator howdy (Some EmptyString)) VUndefined = false /\
   get_messages (make_regex_validator howdy (Some EmptyString)) VUndefined "whatever" =
   [ double_quote "whatever" ++ " should be a string that matches "
       ++ double_quote "/howdy/" ] /\
   get_messages (make_regex_validator howdy (Some EmptyString)) VUndefined "whatever" <>
   [ EmptyString ]) /\
  (pattern_matches howdy_g "howdy" = true /\
   is_valid (make_regex_validator howdy_g (Some "no")) (VString "howdy") = true /\
   is_valid (make_regex_validator howdy_g_used (Some "no")) (VString "howdy") = false /\
   get_messages
     (make_regex_validator (regex_after howdy_g_used (VString "howdy")) (Some "no"))
     (VString "howdy") "whatever" = []).
Proof.
  split; [ split; [ reflexivity | split; [ reflexivity | discriminate ] ] | ].
  repeat split; reflexivity.
Qed.

(** C9, amended: over a pattern that has neither the global nor the sticky
    flag, the regex validator accepts exactly the strings that the pattern
    matches somewhere; when a custom message is supplied and is not the
    empty string, [get_messages] on any rejected input is the list of that
    message alone; and no call changes the pattern. *)
Theorem regex_validator_spec (regex : RegExp) :
  global_or_sticky regex = false ->
  (forall custom_message input,
      is_valid (make_regex_validator regex custom_message) input = true <->
      exists s, input = VString s /\ pattern_matches regex s = true) /\
  (forall message input name,
      message <> EmptyString ->
      is_valid (make_regex_validator regex (Some message)) input = false ->
      get_messages (make_regex_validator regex (Some message)) input name = [ message ]) /\
  (forall input, regex_after regex input = regex).
Proof.
  intros Hflag. split; [ | split ].
  - intros custom_message input. simpl. split.
    + destruct input; simpl; try discriminate.
      rewrite (test_unflagged regex s Hflag). simpl. intros H. now exists s.
    + intros [s [-> H]]. simpl. now rewrite (test_unflagged regex s Hflag).
  - intros message input name Hne Hrej. simpl in *.
    rewrite <- negb_andb, Hrej. simpl.
    destruct (message =? EmptyString) eqn:E; [ | reflexivity ].
    apply String.eqb_eq in E. contradiction.
  - intros input. destruct input; simpl; try reflexivity.
    now rewrite (test_unflagged regex s Hflag).
Qed.

Lemma regex_validator_witness :
  get_messages (make_regex_validator howdy (Some "ya did wrong by me"))
    VUndefined "whatever" = [ "ya did wrong by me" ].
Proof.
  apply (proj1 (proj2 (regex_validator_spec howdy eq_refl))).
  - discriminate.
  - reflexivity.
Defined.

(** * The host's integer test and the repository's examples *)

(** [number_is_integral] on a finite double [m * 2^e]: some integer [z] is
    its value, which for a negative exponent says [m = z * 2^(-e)]. *)
Lemma number_is_integral_finite (s : bool) (m : positive) (e : Z) :
  number_is_integral (S754_finite s m e) = true <->
  (0 <= e \/ exists z, Z.pos m = z * 2 ^ (- e))%Z.
Proof.
  simpl. destruct (Z.leb_spec 0 e) as [Hle | Hlt].
  - split; [ now left | reflexivity ].
  - assert (Hpow : (2 ^ (- e) <> 0)%Z) by (apply Z.pow_nonzero; lia).
    rewrite Z.eqb_eq. split.
    + intros H. right. apply Z.mod_divide in H; [ | exact Hpow ].
      destruct H as [z Hz]. now exists z.
    + intros [H | [z Hz]]; [ lia | ].
      apply Z.mod_divide; [ exact Hpow | now exists z ].
Qed.

(** The test of the output messages in [src/test.ts]. *)
Example output_messages_test :
  get_messages (make_object_validator standard_host test_shape) invalid_input "invalid_input" =
  [ double_quote "invalid_input" ++ " should not have a property named "
      ++ double_quote "WRONG" ++ " ";
    double_quote "invalid_input" ++ "." ++ double_quote "cool_number" ++ " is not a number";
    double_quote "invalid_input" ++ "." ++ double_quote "cool_bool" ++ " is not a boolean";
    double_quote "invalid_input" ++ "." ++ double_quote "cool_array" ++ " is not an array";
    double_quote "invalid_input" ++ "." ++ double_quote "other_array" ++ ": "
      ++ double_quote "other_array[0]" ++ " is not a number, or "
      ++ double_quote "other_array" ++ " should be undefined" ] /\
  is_valid (make_object_validator standard_host test_shape) invalid_input = false.
Proof. split; reflexivity. Qed.

(** The tests of the integer and regex validators. *)
Example integer_test :
  is_valid integer_validator (number_of_Z 3) = true /\
  is_valid integer_validator three_point_four = false.
Proof. split; reflexivity. Qed.

Example regex_test :
  is_valid (make_regex_validator howdy None) (VString "well howdy") = true /\
  is_valid (make_regex_validator howdy None) (VString "howdy there") = true /\
  is_valid (make_regex_validator howdy None) (number_of_Z 3) = false /\
  is_valid (make_regex_validator howdy None) VNull = false /\
  is_valid (make_regex_validator howdy None) (VString "yarp") = false.
Proof. repeat split; reflexivity. Qed.

(** The unknown key of the specification's example. *)
Example unknown_key_example :
  is_valid (make_object_validator standard_host []) (VObject 1 [ ("extra", number_of_Z 1) ]) = false /\
  get_messages (make_object_validator standard_host []) (VObject 1 [ ("extra", number_of_Z 1) ]) "n" =
  [ double_quote "n" ++ " should not have a property named " ++ double_quote "extra" ++ " " ].
Proof. split; reflexivity. Qed.

(** The array combinator never reads the reference of its input, so the
    reference given to the array of [values_plz] does not matter. *)
Lemma array_validator_ignores_ref (element_validator : Validator)
  (ref ref' : nat) (elems : list value) (name : string) :
  is_valid (make_array_validator element_validator) (VArray ref elems)
    = is_valid (make_array_validator element_validator) (VArray ref' elems) /\
  get_messages (make_array_validator element_validator) (VArray ref elems) name
    = get_messages (make_array_validator element_validator) (VArray ref' elems) name.
Proof. split; reflexivity. Qed.

(** The object check lets the empty array through, and the empty shape then
    accepts it. *)
Example empty_array_passes_object :
  is_object (VArray 1 []) = true /\
  is_valid (make_object_validator standard_host []) (VArray 1 []) = true.
Proof. split; reflexivity. Qed.

(** The README's examples of [object_values]. *)
Example object_values_examples :
  is_valid (make_object_values_validator string_validator)
    (VObject 1 [ ("hello", VString "world") ]) = true /\
  is_valid (make_object_values_validator string_validator)
    (VObject 1 [ ("non_string", number_of_Z 3) ]) = false /\
  is_valid (make_object_values_validator string_validator)
    (VObject 1 [ ("hello", VString "darkness"); ("non_string", number_of_Z 3) ]) = false /\
  is_valid (make_object_values_validator string_validator) (VObject 1 []) = true.
Proof. repeat split; reflexivity. Qed.


(** * Further properties of the library *)

(** ** Accepted inputs get no message *)

Lemma elements_quiet (element_validator : Validator) (name : string) :
  quiet_on_valid element_validator ->
  forall (elems : list value) (start : nat),
    forallb (is_valid element_validator) elems = true ->
    flatMap_from
      (fun element index =>
         get_messages element_validator element
           (name ++ "[" ++ index_string index ++ "]")) start elems = [].
Proof.
  intros Hq. induction elems as [| x rest IH]; intros start; simpl.
  - reflexivity.
  - intros H. apply andb_true_iff in H. destruct H as [Hx Hrest].
    rewrite (Hq x _ Hx). simpl. now apply IH.
Qed.

(** X2: whatever the library builds over patterns without the global or the
    sticky flag, [integer_validator] included, never has a message for an
    input it accepts.  The half of the consistency law that
    [integer_validator] breaks is the other one. *)
Theorem library_built_quiet_on_valid (host : Host) (number_to_string : spec_float -> string)
  (v : Validator) :
  library_built host number_to_string v -> quiet_on_valid v.
Proof.
  induction 1 as [ | | | | | v | regex custom_message | shape _ IH
                   | element _ IH | element _ IH | validators _ _
                   | validator _ _ | validator _ _ ];
    intros input name Hvalid; simpl in *.
  - now rewrite Hvalid.
  - now rewrite Hvalid.
  - destruct input; try discriminate. reflexivity.
  - now rewrite Hvalid.
  - now rewrite Hvalid.
  - now rewrite Hvalid.
  - apply andb_true_iff in Hvalid. destruct Hvalid as [-> ->]. reflexivity.
  - destruct (is_object input); simpl in *; [ | discriminate ].
    destruct (forallb (fun key => key_in host key shape) (keys_plz input)) eqn:Ekeys;
      simpl in *; [ | discriminate ].
    apply app_nil_iff. rewrite !map_nil_iff. split.
    + now apply filter_negb_nil_iff.
    + apply flat_map_nil_iff. intros key Hkey.
      rewrite forallb_forall in Hvalid. specialize (Hvalid key Hkey).
      destruct (lookup key shape) as [validator |] eqn:E; [ | reflexivity ].
      apply (IH key validator (lookup_Some_in _ _ _ E)). exact Hvalid.
  - destruct (Array_isArray input); simpl in *; [ | discriminate ].
    now apply elements_quiet.
  - destruct (is_object input); simpl in *; [ | discriminate ].
    now apply elements_quiet.
  - now rewrite Hvalid.
  - now rewrite Hvalid.
  - now rewrite Hvalid.
Qed.

Lemma library_built_quiet_on_valid_witness :
  get_messages (make_object_validator standard_host [ ("age", optional integer_validator) ])
    (VObject 1 [ ("age", number_of_Z 42) ]) "input" = [].
Proof.
  apply (library_built_quiet_on_valid standard_host (fun _ => EmptyString)).
  - apply built_object. intros key validator [Heq | []]. inversion Heq; subst.
    apply built_optional. apply built_integer.
  - reflexivity.
Defined.

(** ** The primitive validators *)

(** X3: [string], [number], [boolean] and [null] each accept the values of
    one kind and no other, so no input passes two of them; [number] takes
    every double, not-a-number and the infinities included, and whatever
    [integer] accepts [number] accepts too.  A rejected input gets exactly
    one message, which opens with the quoted name. *)
Theorem primitive_validators_spec :
  (forall input, is_valid string_validator input = true <-> exists s, input = VString s) /\
  (forall input, is_valid number_validator input = true <-> exists x, input = VNumber x) /\
  (forall input, is_valid boolean_validator input = true <-> exists b, input = VBoolean b) /\
  (forall input, is_valid null_validator input = true <-> input = VNull) /\
  (forall input, is_valid integer_validator input = true ->
                 is_valid number_validator input = true) /\
  (forall input name,
      (is_valid string_validator input = false ->
       get_messages string_validator input name
         = [ double_quote name ++ " is not a string" ]) /\
      (is_valid number_validator input = false ->
       get_messages number_validator input name
         = [ double_quote name ++ " is not a number" ]) /\
      (is_valid boolean_validator input = false ->
       get_messages boolean_validator input name
         = [ double_quote name ++ " is not a boolean" ]) /\
      (is_valid null_validator input = false ->
       get_messages null_validator input name
         = [ double_quote name ++ " should be null" ])).
Proof.
  split; [ | split; [ | split; [ | split; [ | split ] ] ] ].
  - intros input. split.
    + destruct input; try discriminate. intros _. now exists s.
    + intros [s ->]. reflexivity.
  - intros input. split.
    + destruct input; try discriminate. intros _. now exists x.
    + intros [x ->]. reflexivity.
  - intros input. split.
    + destruct input; try discriminate. intros _. now exists b.
    + intros [b ->]. reflexivity.
  - intros input. split.
    + destruct input; try discriminate. reflexivity.
    + intros ->. reflexivity.
  - intros input. destruct input; try discriminate. reflexivity.
  - intros input name. simpl. repeat split; intros H; now rewrite H.
Qed.

(** ** The exact validator *)

Lemma SFeqb_refl (x : spec_float) : x <> S754_nan -> SFeqb x x = true.
Proof.
  unfold SFeqb. destruct x as [s | s | | s m e]; simpl.
  - reflexivity.
  - now destruct s.
  - intros H. now destruct H.
  - intros _. rewrite Z.compare_refl.
    change (PosDef.Pos.compare_cont Eq m m) with (Pos.compare m m).
    rewrite Pos.compare_refl. now destruct s.
Qed.

Lemma SFeqb_nan_r (x : spec_float) : SFeqb x S754_nan = false.
Proof. now destruct x. Qed.

(** X4: [exact(v)] accepts [v] itself unless [v] is not-a-number, which
    [exact] never accepts from anything; on a string it accepts that string
    and nothing else; on an object or an array only the reference counts,
    whatever the contents. *)
Theorem exact_validator_spec (number_to_string : spec_float -> string) :
  (forall v, is_valid (make_exact_validator number_to_string v) v = true <-> v <> NaN) /\
  (forall input, is_valid (make_exact_validator number_to_string NaN) input = false) /\
  (forall s input,
      is_valid (make_exact_validator number_to_string (VString s)) input = true <->
      input = VString s) /\
  (forall ref props ref' props',
      is_valid (make_exact_validator number_to_string (VObject ref props))
        (VObject ref' props') = true <-> ref' = ref) /\
  (forall ref elems ref' elems',
      is_valid (make_exact_validator number_to_string (VArray ref elems))
        (VArray ref' elems') = true <-> ref' = ref).
Proof.
  split; [ | split; [ | split; [ | split ] ] ].
  - intros v. simpl. split.
    + intros H Hnan. subst v. discriminate H.
    + intros Hne. destruct v as [ | | b | x | s | r ps | r es | r src ]; simpl;
        try reflexivity.
      * apply Bool.eqb_reflx.
      * apply SFeqb_refl. intros ->. now apply Hne.
      * apply String.eqb_refl.
      * apply Nat.eqb_refl.
      * apply Nat.eqb_refl.
      * apply Nat.eqb_refl.
  - intros input. simpl. destruct input; try reflexivity. apply SFeqb_nan_r.
  - intros s input. simpl. split.
    + destruct input; try discriminate. simpl. intros H.
      apply String.eqb_eq in H. now subst.
    + intros ->. simpl. apply String.eqb_refl.
  - intros. simpl. apply Nat.eqb_eq.
  - intros. simpl. apply Nat.eqb_eq.
Qed.

(** X5: an enumeration built as [one_of] over [exact] strings accepts the
    listed strings and nothing else. *)
Theorem string_enum_spec (number_to_string : spec_float -> string)
  (choices : list string) (input : value) :
  is_valid (string_enum number_to_string choices) input = true <->
  exists choice, In choice choices /\ input = VString choice.
Proof.
  unfold string_enum. simpl. rewrite existsb_exists. split.
  - intros [validator [Hin Hvalid]]. apply in_map_iff in Hin.
    destruct Hin as [choice [<- Hchoice]]. exists choice. split; [ exact Hchoice | ].
    simpl in Hvalid. destruct input; try discriminate.
    apply String.eqb_eq in Hvalid. now subst.
  - intros [choice [Hchoice ->]].
    exists (make_exact_validator number_to_string (VString choice)). split.
    + apply in_map_iff. now exists choice.
    + simpl. apply String.eqb_refl.
Qed.

(** ** What the object combinator reads of its input *)

Lemma lookup_app {A : Type} (key : string) (l1 l2 : list (string * A)) :
  lookup key (l1 ++ l2)%list =
  match lookup key l1 with
  | Some a => Some a
  | None => lookup key l2
  end.
Proof.
  induction l1 as [| [k a] rest IH]; simpl.
  - reflexivity.
  - destruct (key =? k); [ reflexivity | exact IH ].
Qed.

Lemma lookup_not_in_None {A : Type} (key : string) (props : list (string * A)) :
  ~ In key (map fst props) -> lookup key props = None.
Proof.
  intros Habs. destruct (lookup key props) as [a |] eqn:E; [ | reflexivity ].
  exfalso. apply Habs. apply lookup_Some_in in E.
  apply (in_map fst) in E. exact E.
Qed.

Lemma lookup_Permutation {A : Type} (key : string) (props props' : list (string * A)) :
  NoDup (map fst props) -> Permutation props props' ->
  lookup key props = lookup key props'.
Proof.
  intros Hnd Hperm.
  assert (Hnd' : NoDup (map fst props')).
  { apply (Permutation_NoDup (Permutation_map fst Hperm) Hnd). }
  destruct (lookup key props) as [a |] eqn:E.
  - symmetry. apply lookup_NoDup; [ exact Hnd' | ].
    apply (Permutation_in _ Hperm). now apply lookup_Some_in.
  - symmetry. apply lookup_not_in_None. intros Hin.
    apply (lookup_None_not_in _ _ E).
    apply (Permutation_in _ (Permutation_sym (Permutation_map fst Hperm))).
    exact Hin.
Qed.

Lemma forallb_Permutation {A : Type} (p : A -> bool) (l l' : list A) :
  Permutation l l' -> forallb p l = forallb p l'.
Proof.
  induction 1 as [ | a l l' _ IH | a b l | l l' l'' _ IH1 _ IH2 ]; simpl.
  - reflexivity.
  - now rewrite IH.
  - now destruct (p a), (p b).
  - now rewrite IH1.
Qed.

Lemma existsb_Permutation {A : Type} (p : A -> bool) (l l' : list A) :
  Permutation l l' -> existsb p l = existsb p l'.
Proof.
  induction 1 as [ | a l l' _ IH | a b l | l l' l'' _ IH1 _ IH2 ]; simpl.
  - reflexivity.
  - now rewrite IH.
  - now destruct (p a), (p b).
  - now rewrite IH1.
Qed.

Lemma filter_Permutation {A : Type} (p : A -> bool) (l l' : list A) :
  Permutation l l' -> Permutation (filter p l) (filter p l').
Proof.
  induction 1 as [ | a l l' _ IH | a b l | l l' l'' _ IH1 _ IH2 ]; simpl.
  - constructor.
  - destruct (p a); [ now constructor | exact IH ].
  - destruct (p a), (p b); try apply Permutation_refl. constructor.
  - now apply (Permutation_trans IH1).
Qed.

Lemma forallb_ext_in {A : Type} (p q : A -> bool) (l : list A) :
  (forall a, In a l -> p a = q a) -> forallb p l = forallb q l.
Proof.
  induction l as [| a l IH]; simpl; intros H.
  - reflexivity.
  - rewrite (H a (or_introl eq_refl)). f_equal. apply IH.
    intros b Hb. apply H. now right.
Qed.

Lemma forallb_filter_negb {A : Type} (p : A -> bool) (l l' : list A) :
  filter (fun a => negb (p a)) l = filter (fun a => negb (p a)) l' ->
  forallb p l = forallb p l'.
Proof.
  intros H. destruct (forallb p l) eqn:E.
  - symmetry. apply filter_negb_nil_iff. rewrite <- H.
    now apply filter_negb_nil_iff.
  - destruct (forallb p l') eqn:E'; [ | reflexivity ].
    apply filter_negb_nil_iff in E'. rewrite <- H in E'.
    apply filter_negb_nil_iff in E'. congruence.
Qed.

(** The object validator reads three things of its input: whether it is an
    object, which of its keys the shape lacks, and its properties at the
    keys of the shape. *)
Lemma object_validator_ext (host : Host) (shape : ValidatorShape) (x y : value) :
  is_object x = is_object y ->
  filter (fun key => negb (key_in host key shape)) (keys_plz x)
    = filter (fun key => negb (key_in host key shape)) (keys_plz y) ->
  (forall key, In key (shape_keys shape) -> get_prop host x key = get_prop host y key) ->
  is_valid (make_object_validator host shape) x = is_valid (make_object_validator host shape) y /\
  (forall name,
      get_messages (make_object_validator host shape) x name
        = get_messages (make_object_validator host shape) y name).
Proof.
  intros Hobj Hkeys Hprops. split; [ | intros name ]; simpl; rewrite Hobj;
    destruct (is_object y); simpl; try reflexivity.
  - rewrite (forallb_filter_negb _ _ _ Hkeys).
    destruct (forallb (fun key => key_in host key shape) (keys_plz y)); simpl;
      [ | reflexivity ].
    apply forallb_ext_in. intros key Hkey. now rewrite (Hprops key Hkey).
  - rewrite Hkeys. f_equal. f_equal.
    apply flat_map_ext_in'. intros key Hkey. now rewrite (Hprops key Hkey).
Qed.

(** X6: for a key that the shape declares and that is not the name of a
    property of [Object.prototype], a property set to [undefined] and a
    missing property are the same to [object(s)], in the verdict and in the
    messages. *)
Theorem explicit_undefined_is_absent (host : Host) (shape : ValidatorShape)
  (ref ref' : nat) (before after : list (string * value)) (key : string) :
  In key (shape_keys shape) ->
  lookup key (Object_prototype host) = None ->
  ~ In key (map fst (before ++ after)%list) ->
  is_valid (make_object_validator host shape)
    (VObject ref (before ++ (key, VUndefined) :: after)%list)
    = is_valid (make_object_validator host shape) (VObject ref' (before ++ after)%list) /\
  (forall name,
      get_messages (make_object_validator host shape)
        (VObject ref (before ++ (key, VUndefined) :: after)%list) name
        = get_messages (make_object_validator host shape)
            (VObject ref' (before ++ after)%list) name).
Proof.
  intros Hdecl Hplain Habs. apply object_validator_ext.
  - reflexivity.
  - simpl. rewrite !map_app, !filter_app. simpl.
    assert (Hin : key_in host key shape = true) by (apply key_in_spec; now left).
    now rewrite Hin.
  - intros k _. unfold get_prop. simpl. rewrite !lookup_app. simpl.
    rewrite map_app, in_app_iff in Habs.
    destruct (lookup k before) as [v |] eqn:Eb; [ reflexivity | ].
    destruct (k =? key) eqn:Ek; [ | reflexivity ].
    apply String.eqb_eq in Ek. subst k.
    rewrite (lookup_not_in_None key after), Hplain; [ reflexivity | tauto ].
Qed.

Lemma explicit_undefined_is_absent_witness :
  is_valid (make_object_validator standard_host hero_shape)
    (VObject 1 [ ("name", VString "Joseph"); ("cool", VUndefined);
                 ("age", number_of_Z 42); ("powers", VArray 2 []) ])
  = is_valid (make_object_validator standard_host hero_shape)
      (VObject 1 [ ("name", VString "Joseph");
                   ("age", number_of_Z 42); ("powers", VArray 2 []) ]).
Proof.
  apply (proj1 (explicit_undefined_is_absent standard_host hero_shape 1 1
                  [ ("name", VString "Joseph") ]
                  [ ("age", number_of_Z 42); ("powers", VArray 2 []) ] "cool"
                  ltac:(simpl; tauto)
                  eq_refl
                  ltac:(simpl; intuition discriminate))).
Defined.

(** X7: the verdict of [object(s)] on an object does not depend on the order
    of the input's properties nor on the order of the shape's; reordering
    the input only reorders the messages about unknown keys. *)
Theorem object_validity_ignores_order (host : Host) (shape shape' : ValidatorShape)
  (ref ref' : nat) (props props' : list (string * value)) :
  NoDup (map fst props) -> Permutation props props' ->
  NoDup (shape_keys shape) -> Permutation shape shape' ->
  is_valid (make_object_validator host shape) (VObject ref props)
    = is_valid (make_object_validator host shape') (VObject ref' props') /\
  (forall name,
      Permutation (get_messages (make_object_validator host shape) (VObject ref props) name)
                  (get_messages (make_object_validator host shape) (VObject ref' props') name)).
Proof.
  intros Hnd Hperm Hsnd Hsperm.
  assert (Hkey : forall key, key_in host key shape = key_in host key shape').
  { intros key. unfold key_in, declared, shape_keys. f_equal.
    apply existsb_Permutation. now apply Permutation_map. }
  split.
  - simpl.
    rewrite (forallb_Permutation _ _ _ (Permutation_map fst Hperm)).
    rewrite (forallb_ext_in _ (fun key => key_in host key shape') _ (fun key _ => Hkey key)).
    destruct (forallb (fun key => key_in host key shape') (map fst props')); simpl;
      [ | reflexivity ].
    unfold shape_keys.
    rewrite (forallb_Permutation _ _ _ (Permutation_map fst Hsperm)).
    apply forallb_ext_in. intros key _.
    rewrite <- (lookup_Permutation key shape shape' Hsnd Hsperm).
    unfold get_prop. simpl.
    now rewrite (lookup_Permutation key props props' Hnd Hperm).
  - intros name. simpl. apply Permutation_app.
    + apply Permutation_map. apply filter_Permutation.
      now apply Permutation_map.
    + erewrite flat_map_ext_in'; [ apply Permutation_refl | ].
      intros key _. unfold get_prop. simpl.
      now rewrite (lookup_Permutation key props props' Hnd Hperm).
Qed.

Lemma object_validity_ignores_order_witness :
  is_valid (make_object_validator standard_host hero_shape)
    (VObject 1 [ ("name", VString "Batman"); ("age", number_of_Z 27) ])
  = is_valid
      (make_object_validator standard_host
         [ ("age", number_validator);
           ("name", string_validator);
           ("cool", optional boolean_validator);
           ("powers", make_array_validator string_validator) ])
      (VObject 2 [ ("age", number_of_Z 27); ("name", VString "Batman") ]).
Proof.
  apply object_validity_ignores_order.
  - repeat constructor; simpl; intuition discriminate.
  - apply perm_swap.
  - repeat constructor; simpl; intuition discriminate.
  - apply perm_swap.
Defined.

(** ** What the object-values combinator reads of its input *)

Lemma index_string_round_trip (i : nat) :
  NilZero.uint_of_string (index_string i) = Some (Nat.to_uint i).
Proof.
  unfold index_string. apply NilZero.usu.
  rewrite <- (Unsigned.of_to i) at 1. rewrite Unsigned.to_of.
  apply DecimalFacts.unorm_nonnil.
Qed.

(** An array has its element as own property at the printed form of the
    element's index. *)
Lemma array_get_index (elems : list value) (i : nat) :
  array_get elems (index_string i) = nth_error elems i.
Proof.
  unfold array_get. rewrite index_string_round_trip. cbv zeta.
  rewrite Unsigned.of_to. now rewrite String.eqb_refl.
Qed.

Lemma map_nth_error_seq_from {A : Type} (l before : list A) :
  map (fun i => nth_error (before ++ l)%list i)
      (seq (List.length before) (List.length l)) = map Some l.
Proof.
  revert before. induction l as [| a l IH]; intros before; simpl.
  - reflexivity.
  - f_equal.
    + rewrite nth_error_app2, Nat.sub_diag; [ reflexivity | lia ].
    + specialize (IH (before ++ [a])%list).
      rewrite <- app_assoc, length_app in IH. simpl in IH.
      rewrite Nat.add_1_r in IH. exact IH.
Qed.

Lemma map_lookup_keys (props before : list (string * value)) :
  NoDup (map fst (before ++ props)%list) ->
  map (fun key => lookup key (before ++ props)%list) (map fst props)
    = map Some (map snd props).
Proof.
  revert before. induction props as [| [k v] rest IH]; intros before Hnd; simpl.
  - reflexivity.
  - f_equal.
    + rewrite (lookup_NoDup _ k v Hnd); [ reflexivity | ].
      apply in_or_app. right. now left.
    + specialize (IH (before ++ [ (k, v) ])%list).
      rewrite <- app_assoc in IH. now apply IH.
Qed.

(** At the keys of [keys_plz(x)] the input has own properties, and they are
    the values of [values_plz(x)], in order. *)
Lemma own_props_at_keys (input : value) :
  NoDup (keys_plz input) ->
  map (own_prop input) (keys_plz input) = map Some (Object_values input).
Proof.
  destruct input as [ | | b | x | s | r ps | r es | r src ]; simpl; try reflexivity.
  - intros Hnd. apply (map_lookup_keys ps [] Hnd).
  - intros _. rewrite map_map.
    rewrite (map_ext _ (fun i => nth_error es i) (fun i => array_get_index es i)).
    apply (map_nth_error_seq_from es []).
Qed.

Lemma map_found {A B : Type} (f : A -> option B) (g : A -> B) (l : list A) (found : list B) :
  map f l = map Some found ->
  map (fun a => match f a with
                | Some b => b
                | None => g a
                end) l = found.
Proof.
  revert found. induction l as [| a l IH]; intros [| b found]; simpl;
    try discriminate; try reflexivity.
  intros H. inversion H as [[Ha Hl]]. rewrite Ha. f_equal. now apply IH.
Qed.

(** [values_plz(x)] lists [x[k]] for the keys [k] of [keys_plz(x)], in
    their order: an own property hides what the prototypes hold. *)
Lemma values_are_props_at_keys (host : Host) (input : value) :
  NoDup (keys_plz input) ->
  map (get_prop host input) (keys_plz input) = Object_values input.
Proof.
  intros Hnd. unfold get_prop.
  apply (map_found (own_prop input)
           (fun key => match hidden_prop host input key with
                       | Some v => v
                       | None => VUndefined
                       end)).
  now apply own_props_at_keys.
Qed.

(** X8: [object_values(e)] accepts an object or an array exactly when [e]
    accepts the property at each of its keys; the keys themselves, their
    order and the reference play no part in the verdict. *)
Theorem object_values_validity (host : Host) (element_validator : Validator)
  (input : value) :
  is_object input = true ->
  NoDup (keys_plz input) ->
  (is_valid (make_object_values_validator element_validator) input = true <->
   (forall key, In key (keys_plz input) ->
                is_valid element_validator (get_prop host input key) = true)) /\
  (forall ref' props',
      Permutation (Object_values input) (map snd props') ->
      is_valid (make_object_values_validator element_validator) input
        = is_valid (make_object_values_validator element_validator)
            (VObject ref' props')).
Proof.
  intros Hobj Hnd. split.
  - simpl. rewrite Hobj. simpl.
    rewrite <- (values_are_props_at_keys host input Hnd), forallb_forall. split.
    + intros H key Hkey. apply H. now apply in_map.
    + intros H v Hv. apply in_map_iff in Hv. destruct Hv as [key [<- Hkey]].
      now apply H.
  - intros ref' props' Hperm. simpl. rewrite Hobj. simpl.
    now apply forallb_Permutation.
Qed.

Lemma object_values_validity_witness :
  is_valid (make_object_values_validator string_validator)
    (VObject 1 [ ("hello", VString "darkness"); ("non_string", number_of_Z 3) ])
  = is_valid (make_object_values_validator string_validator)
      (VObject 2 [ ("a", number_of_Z 3); ("b", VString "darkness") ]).
Proof.
  apply (proj2 (object_values_validity standard_host string_validator
                  (VObject 1 [ ("hello", VString "darkness");
                               ("non_string", number_of_Z 3) ])
                  eq_refl
                  ltac:(repeat constructor; simpl; intuition discriminate))).
  apply perm_swap.
Defined.

(** ** Messages carry the name *)

Lemma prefix_append (s1 s2 : string) : String.prefix s1 (s1 ++ s2) = true.
Proof.
  induction s1 as [| c s1 IH]; simpl.
  - now destruct s2.
  - destruct (ascii_dec c c) as [_ | Hne]; [ exact IH | now destruct Hne ].
Qed.

(** X9: every message of [object(s)] and every message of [one_of(vs)]
    begins with the quoted name it was asked under, whatever the children
    report. *)
Theorem messages_begin_with_quoted_name (host : Host) (input : value) (name message : string) :
  (forall shape,
      In message (get_messages (make_object_validator host shape) input name) ->
      String.prefix (double_quote name) message = true) /\
  (forall validators,
      In message (get_messages (one_of validators) input name) ->
      String.prefix (double_quote name) message = true).
Proof.
  split.
  - intros shape. simpl. destruct (is_object input); simpl.
    + rewrite in_app_iff, !in_map_iff.
      intros [[key [<- _]] | [m [<- _]]]; apply prefix_append.
    + intros [<- | []]. apply prefix_append.
  - intros validators. simpl.
    destruct (existsb (fun validator => is_valid validator input) validators); simpl.
    + intros [].
    + intros [<- | []]. apply prefix_append.
Qed.

(** ** The algebra of unions *)

Lemma strict_equals_null (input : value) :
  strict_equals input VNull = true <-> input = VNull.
Proof. destruct input; simpl; split; congruence. Qed.

Lemma strict_equals_undefined (input : value) :
  strict_equals input VUndefined = true <-> input = VUndefined.
Proof. destruct input; simpl; split; congruence. Qed.

(** X10: the verdict of [one_of] does not depend on the order of the
    alternatives, and a union of unions accepts what the flat union accepts;
    away from [null] and [undefined], [nullable(v)] and [optional(v)] accept
    exactly what [v] accepts. *)
Theorem one_of_validity_algebra (input : value) :
  (forall validators validators',
      Permutation validators validators' ->
      is_valid (one_of validators) input = is_valid (one_of validators') input) /\
  (forall validators validators',
      is_valid (one_of [ one_of validators; one_of validators' ]) input
        = is_valid (one_of (validators ++ validators')%list) input) /\
  (forall validator,
      input <> VNull -> input <> VUndefined ->
      is_valid (nullable validator) input = is_valid validator input /\
      is_valid (optional validator) input = is_valid validator input).
Proof.
  split; [ | split ].
  - intros validators validators' Hperm. simpl. now apply existsb_Permutation.
  - intros validators validators'. simpl. now rewrite existsb_app, orb_false_r.
  - intros validator Hnull Hundef. simpl. rewrite !orb_false_r.
    destruct (strict_equals input VNull) eqn:En.
    + apply strict_equals_null in En. contradiction.
    + destruct (strict_equals input VUndefined) eqn:Eu.
      * apply strict_equals_undefined in Eu. contradiction.
      * now rewrite !orb_false_r.
Qed.

Lemma one_of_validity_algebra_witness :
  is_valid (one_of [ string_validator; number_validator ]) (number_of_Z 9)
  = is_valid (one_of [ number_validator; string_validator ]) (number_of_Z 9) /\
  is_valid (nullable string_validator) (VBoolean false)
  = is_valid string_validator (VBoolean false).
Proof.
  split.
  - apply (proj1 (one_of_validity_algebra (number_of_Z 9))). apply perm_swap.
  - apply (proj2 (proj2 (one_of_validity_algebra (VBoolean false)))); discriminate.
Defined.

(** ** Nothing a child reports is lost *)

(** X11: [object(s)] rejects an input with a key that is not [in] the shape
    (neither declared by it nor inherited from [Object.prototype]) and has
    the message about that key; it hands on every message of every child,
    behind the quoted name and a dot; and [array(e)] hands on every message
    of [e] about every element. *)
Theorem every_violation_is_reported (host : Host) (input : value) (name : string) :
  (forall shape key,
      is_object input = true ->
      In key (keys_plz input) -> key_in host key shape = false ->
      is_valid (make_object_validator host shape) input = false /\
      In (double_quote name ++ " should not have a property named "
            ++ double_quote key ++ " ")
         (get_messages (make_object_validator host shape) input name)) /\
  (forall shape key validator message,
      is_object input = true ->
      lookup key shape = Some validator ->
      In message (get_messages validator (get_prop host input key) key) ->
      In (double_quote name ++ "." ++ message)
         (get_messages (make_object_validator host shape) input name)) /\
  (forall element_validator ref elems i message,
      input = VArray ref elems ->
      i < List.length elems ->
      In message (get_messages element_validator (nth i elems VUndefined)
                    (name ++ "[" ++ index_string i ++ "]")) ->
      In message (get_messages (make_array_validator element_validator) input name)).
Proof.
  split; [ | split ].
  - intros shape key Hobj Hkey Hnot.
    split; simpl; rewrite Hobj; simpl.
    + destruct (forallb (fun k => key_in host k shape) (keys_plz input)) eqn:E;
        [ | reflexivity ].
      rewrite forallb_forall in E. rewrite (E key Hkey) in Hnot. discriminate.
    + apply in_or_app. left.
      apply (in_map (fun k => double_quote name ++ " should not have a property named "
                                ++ double_quote k ++ " ")).
      apply filter_In. split; [ exact Hkey | now rewrite Hnot ].
  - intros shape key validator message Hobj Hlookup Hmessage.
    simpl. rewrite Hobj. simpl. apply in_or_app. right.
    apply (in_map (fun m => double_quote name ++ "." ++ m)).
    apply in_flat_map. exists key. split.
    + apply lookup_Some_in in Hlookup. apply (in_map fst) in Hlookup. exact Hlookup.
    + now rewrite Hlookup.
  - intros element_validator ref elems i message -> Hi Hmessage. simpl.
    rewrite (flatMap_indexed_seq
               (fun element index =>
                  get_messages element_validator element
                    (name ++ "[" ++ index_string index ++ "]")) VUndefined).
    apply in_flat_map. exists i. split; [ apply in_seq; lia | exact Hmessage ].
Qed.

Lemma every_violation_is_reported_witness :
  In (double_quote "input" ++ "." ++ double_quote "age" ++ " is not a number")
     (get_messages (make_object_validator standard_host hero_shape) superman "input").
Proof.
  apply (proj1 (proj2 (every_violation_is_reported standard_host superman "input"))
           hero_shape "age" number_validator
           (double_quote "age" ++ " is not a number")).
  - reflexivity.
  - reflexivity.
  - simpl. now left.
Defined.

(** ** Arrays, element by element *)

Lemma flatMap_from_app {A B : Type} (f : A -> nat -> list B) (start : nat)
  (l1 l2 : list A) :
  flatMap_from f start (l1 ++ l2)%list =
  (flatMap_from f start l1 ++ flatMap_from f (start + List.length l1) l2)%list.
Proof.
  revert start. induction l1 as [| a l1 IH]; intros start; simpl.
  - now rewrite Nat.add_0_r.
  - rewrite IH, <- app_assoc. now rewrite Nat.add_succ_r.
Qed.

(** X12: an array of two parts is valid when both parts are, and its
    messages are those of the first part followed by those of the second
    part with its indices moved up by the length of the first: what was
    reported for the leading elements stays as it is when elements are
    added behind them. *)
Theorem array_validator_app (element_validator : Validator)
  (ref : nat) (first second : list value) (name : string) :
  is_valid (make_array_validator element_validator) (VArray ref (first ++ second)%list)
    = is_valid (make_array_validator element_validator) (VArray ref first)
      && is_valid (make_array_validator element_validator) (VArray ref second) /\
  get_messages (make_array_validator element_validator)
    (VArray ref (first ++ second)%list) name
    = (get_messages (make_array_validator element_validator) (VArray ref first) name
       ++ flatMap_from
            (fun element index =>
               get_messages element_validator element
                 (name ++ "[" ++ index_string index ++ "]"))
            (List.length first) second)%list.
Proof.
  split; simpl.
  - apply forallb_app.
  - unfold flatMap_indexed. apply (flatMap_from_app _ 0 first second).
Qed.

Lemma flatMap_from_single {A B : Type} (valid : A -> bool) (g : nat -> B)
  (f : A -> nat -> list B) (d : A) (l before : list A) :
  (forall a i, f a i = if valid a then [] else [ g i ]) ->
  flatMap_from f (List.length before) l =
  map g (filter (fun i => negb (valid (nth i (before ++ l)%list d)))
                (seq (List.length before) (List.length l))).
Proof.
  intros Hf. revert before. induction l as [| a l IH]; intros before; simpl.
  - reflexivity.
  - rewrite app_nth2, Nat.sub_diag by lia. simpl. rewrite Hf.
    specialize (IH (before ++ [ a ])%list).
    rewrite <- app_assoc, length_app in IH. simpl in IH.
    rewrite Nat.add_1_r in IH. rewrite IH.
    now destruct (valid a).
Qed.

(** X13: over an element validator that answers a rejected input with one
    message, [array(e)] reports exactly the indices of the rejected
    elements, one message each, in ascending order. *)
Theorem array_reports_rejected_indices (element_validator : Validator)
  (describe : string -> string) (ref : nat) (elems : list value) (name : string) :
  (forall input path,
      get_messages element_validator input path =
      if is_valid element_validator input then [] else [ describe path ]) ->
  get_messages (make_array_validator element_validator) (VArray ref elems) name =
  map (fun i => describe (name ++ "[" ++ index_string i ++ "]"))
      (filter (fun i => negb (is_valid element_validator (nth i elems VUndefined)))
              (seq 0 (List.length elems))).
Proof.
  intros Hone. simpl. unfold flatMap_indexed.
  apply (flatMap_from_single (is_valid element_validator)
           (fun i => describe (name ++ "[" ++ index_string i ++ "]"))
           _ VUndefined elems []).
  intros a i. apply Hone.
Qed.

Lemma array_reports_rejected_indices_witness :
  get_messages (make_array_validator string_validator)
    (VArray 1 [ number_of_Z 1; VString "a"; VNull ]) "list" =
  [ double_quote "list[0]" ++ " is not a string";
    double_quote "list[2]" ++ " is not a string" ].
Proof.
  rewrite (array_reports_rejected_indices string_validator
             (fun path => double_quote path ++ " is not a string")).
  - reflexivity.
  - intros input path. reflexivity.
Defined.

(** ** The name only labels *)

Lemma flatMap_from_length {A B : Type} (f g : A -> nat -> list B) (start : nat)
  (l : list A) :
  (forall a i, In a l -> List.length (f a i) = List.length (g a i)) ->
  List.length (flatMap_from f start l) = List.length (flatMap_from g start l).
Proof.
  revert start. induction l as [| a l IH]; intros start H; simpl.
  - reflexivity.
  - rewrite !length_app, (H a start (or_introl eq_refl)). f_equal.
    apply IH. intros b i Hb. apply H. now right.
Qed.

(** X14: for every validator the library builds over patterns without the
    global or the sticky flag, the number of messages about an input is the
    same under every name; in particular whether there is any message does
    not depend on the name. *)
Theorem message_count_ignores_name (host : Host) (number_to_string : spec_float -> string)
  (v : Validator) :
  library_built host number_to_string v ->
  forall input name name',
    List.length (get_messages v input name) = List.length (get_messages v input name').
Proof.
  induction 1 as [ | | | | | v | regex custom_message | shape _ _
                   | element _ IH | element _ IH | validators _ _
                   | validator _ _ | validator _ _ ];
    intros input name name'; simpl.
  - now destruct (is_string input).
  - now destruct (is_number input).
  - now destruct (is_number input).
  - now destruct (is_boolean input).
  - now destruct (strict_equals input VNull).
  - now destruct (strict_equals input v).
  - now destruct (negb (js_typeof input =? "string") || negb (RegExp_test regex input)).
  - destruct (is_object input); simpl; [ | reflexivity ].
    now rewrite !length_app, !length_map.
  - destruct (Array_isArray input); simpl; [ | reflexivity ].
    apply flatMap_from_length. intros a i _. apply IH.
  - destruct (is_object input); simpl; [ | reflexivity ].
    apply flatMap_from_length. intros a i _. apply IH.
  - now destruct (existsb (fun validator => is_valid validator input) validators).
  - now destruct (is_valid validator input || (strict_equals input VNull || false)).
  - now destruct (is_valid validator input || (strict_equals input VUndefined || false)).
Qed.

Lemma message_count_ignores_name_witness :
  List.length (get_messages (make_array_validator integer_validator)
                 (VArray 1 [ VString "a"; three_point_four ]) "short")
  = List.length (get_messages (make_array_validator integer_validator)
                   (VArray 1 [ VString "a"; three_point_four ]) "a longer name").
Proof.
  apply (message_count_ignores_name standard_host (fun _ => EmptyString)).
  apply built_array. apply built_integer.
Defined.

(** ** No message without a cause *)

(** X15: on an object, every message of [object(s)] is either the message
    about a key of the input that the shape lacks, or a message of a child
    about the property at its key, behind the quoted name and a dot; and
    every message of [array(e)] on an array is a message of [e] about one of
    the elements, under that element's indexed name. *)
Theorem every_message_has_a_cause (host : Host) (input : value) (name message : string) :
  (forall shape,
      is_object input = true ->
      In message (get_messages (make_object_validator host shape) input name) ->
      (exists key,
          In key (keys_plz input) /\ ~ In key (shape_keys shape) /\
          message = double_quote name ++ " should not have a property named "
                      ++ double_quote key ++ " ") \/
      (exists key validator child_message,
          lookup key shape = Some validator /\
          In child_message (get_messages validator (get_prop host input key) key) /\
          message = double_quote name ++ "." ++ child_message)) /\
  (forall element_validator ref elems,
      input = VArray ref elems ->
      In message (get_messages (make_array_validator element_validator) input name) ->
      exists i,
        i < List.length elems /\
        In message (get_messages element_validator (nth i elems VUndefined)
                      (name ++ "[" ++ index_string i ++ "]"))).
Proof.
  split.
  - intros shape Hobj. simpl. rewrite Hobj. simpl.
    rewrite in_app_iff, !in_map_iff.
    intros [[key [<- Hkey]] | [m [<- Hm]]].
    + left. exists key. apply filter_In in Hkey. destruct Hkey as [Hkey Hnot].
      split; [ exact Hkey | split; [ | reflexivity ] ].
      apply (key_in_false_not_declared host). now destruct (key_in host key shape).
    + right. apply in_flat_map in Hm. destruct Hm as [key [_ Hm]].
      destruct (lookup key shape) as [validator |] eqn:E; [ | destruct Hm ].
      now exists key, validator, m.
  - intros element_validator ref elems ->. simpl.
    rewrite (flatMap_indexed_seq
               (fun element index =>
                  get_messages element_validator element
                    (name ++ "[" ++ index_string index ++ "]")) VUndefined).
    intros H. apply in_flat_map in H. destruct H as [i [Hi Hm]].
    exists i. split; [ apply in_seq in Hi; lia | exact Hm ].
Qed.

Lemma every_message_has_a_cause_witness :
  exists i,
    i < 2 /\
    In (double_quote "list[1]" ++ " is not a string")
       (get_messages string_validator
          (nth i [ VString "a"; number_of_Z 1 ] VUndefined)
          ("list" ++ "[" ++ index_string i ++ "]")).
Proof.
  apply (proj2 (every_message_has_a_cause standard_host
                  (VArray 1 [ VString "a"; number_of_Z 1 ]) "list"
                  (double_quote "list[1]" ++ " is not a string"))
           string_validator 1 [ VString "a"; number_of_Z 1 ] eq_refl).
  simpl. now left.
Defined.

(** ** Wider children, wider schema *)

Lemma lookup_Forall2 (P : Validator -> Validator -> Prop)
  (shape shape' : ValidatorShape) (key : string) (validator : Validator) :
  Forall2 (fun p p' => fst p = fst p' /\ P (snd p) (snd p')) shape shape' ->
  lookup key shape = Some validator ->
  exists validator', lookup key shape' = Some validator' /\ P validator validator'.
Proof.
  induction 1 as [| [k a] [k' a'] rest rest' [Hk Ha] _ IH]; simpl.
  - discriminate.
  - simpl in Hk, Ha. subst k'. destruct (key =? k).
    + intros [= <-]. now exists a'.
    + exact IH.
Qed.

Lemma shape_keys_Forall2 (P : Validator -> Validator -> Prop)
  (shape shape' : ValidatorShape) :
  Forall2 (fun p p' => fst p = fst p' /\ P (snd p) (snd p')) shape shape' ->
  shape_keys shape = shape_keys shape'.
Proof.
  induction 1 as [| p p' rest rest' [Hk _] _ IH]; simpl.
  - reflexivity.
  - now rewrite Hk, IH.
Qed.

(** X16: replacing children by validators that accept at least as much
    never turns an accepted input into a rejected one: this holds for
    [array], [object_values], and [object] over the same keys, and adding
    alternatives to [one_of] only widens it. *)
Theorem wider_children_accept_more (host : Host) (input : value) :
  (forall e e',
      (forall x, is_valid e x = true -> is_valid e' x = true) ->
      (is_valid (make_array_validator e) input = true ->
       is_valid (make_array_validator e') input = true) /\
      (is_valid (make_object_values_validator e) input = true ->
       is_valid (make_object_values_validator e') input = true)) /\
  (forall shape shape',
      Forall2 (fun p p' =>
                 fst p = fst p' /\
                 forall x, is_valid (snd p) x = true -> is_valid (snd p') x = true)
              shape shape' ->
      is_valid (make_object_validator host shape) input = true ->
      is_valid (make_object_validator host shape') input = true) /\
  (forall validators validators',
      incl validators validators' ->
      is_valid (one_of validators) input = true ->
      is_valid (one_of validators') input = true).
Proof.
  split; [ | split ].
  - intros e e' Hwider. split; simpl.
    + destruct (Array_isArray input); simpl; [ | discriminate ].
      rewrite !forallb_forall. intros H x Hx. apply Hwider. now apply H.
    + destruct (is_object input); simpl; [ | discriminate ].
      rewrite !forallb_forall. intros H x Hx. apply Hwider. now apply H.
  - intros shape shape' Hshapes. simpl.
    destruct (is_object input); simpl; [ | discriminate ].
    pose (wider := fun v v' : Validator =>
                     forall x, is_valid v x = true -> is_valid v' x = true).
    unfold key_in, declared. rewrite <- (shape_keys_Forall2 wider _ _ Hshapes).
    match goal with
    | |- context [ forallb ?in_shape (keys_plz input) ] =>
        destruct (forallb in_shape (keys_plz input)); simpl; [ | discriminate ]
    end.
    rewrite !forallb_forall. intros H key Hkey. specialize (H key Hkey).
    destruct (lookup key shape) as [validator |] eqn:E; [ | discriminate ].
    destruct (lookup_Forall2 wider _ _ key validator Hshapes E)
      as [validator' [-> Hwider]].
    now apply Hwider.
  - intros validators validators' Hincl. simpl. rewrite !existsb_exists.
    intros [v [Hin Hv]]. exists v. split; [ now apply Hincl | exact Hv ].
Qed.

Lemma wider_children_accept_more_witness :
  is_valid (make_array_validator number_validator)
    (VArray 1 [ number_of_Z 1; number_of_Z 2 ]) = true.
Proof.
  apply (proj1 (proj1 (wider_children_accept_more standard_host
                         (VArray 1 [ number_of_Z 1; number_of_Z 2 ]))
                  integer_validator number_validator
                  ltac:(intros x; destruct x; try discriminate; reflexivity))).
  reflexivity.
Defined.

(** ** Property lists and the order of [Object.keys] *)

Lemma set_property_fresh {A : Type} (key : string) (a : A) (props : list (string * A)) :
  ~ In key (map fst props) -> set_property key a props = (props ++ [ (key, a) ])%list.
Proof.
  induction props as [| [k b] rest IH]; simpl; intros Hfresh.
  - reflexivity.
  - destruct (key =? k) eqn:E.
    + apply String.eqb_eq in E. subst. tauto.
    + rewrite IH; [ reflexivity | tauto ].
Qed.

Lemma fold_set_property {A : Type} (written props : list (string * A)) :
  NoDup (map fst (props ++ written)%list) ->
  fold_left (fun acc property => set_property (fst property) (snd property) acc)
            written props = (props ++ written)%list.
Proof.
  revert props. induction written as [| [k a] rest IH]; intros props Hnd; simpl.
  - now rewrite app_nil_r.
  - rewrite set_property_fresh.
    + rewrite IH; rewrite <- app_assoc; [ reflexivity | exact Hnd ].
    + rewrite map_app in Hnd. simpl in Hnd. apply NoDup_remove_2 in Hnd.
      intros Hin. apply Hnd. apply in_or_app. now left.
Qed.

Lemma fold_no_index {A : Type} (props : list (string * A)) (sorted : list (N * (string * A))) :
  (forall property, In property props -> array_index (fst property) = None) ->
  fold_left (fun acc property =>
               match array_index (fst property) with
               | Some n => insert_by_index n property acc
               | None => acc
               end) props sorted = sorted.
Proof.
  revert sorted. induction props as [| p rest IH]; intros sorted H; simpl.
  - reflexivity.
  - rewrite (H p (or_introl eq_refl)). apply IH. intros q Hq. apply H. now right.
Qed.

(** Written without a repeated key and without an array index among the
    keys, the properties of an object literal are enumerated as written.
    This is the case of the shapes and inputs of the README and of the test
    suite. *)
Lemma object_literal_as_written {A : Type} (written : list (string * A)) :
  NoDup (map fst written) ->
  (forall property, In property written -> array_index (fst property) = None) ->
  object_literal written = written.
Proof.
  intros Hnd Hplain. unfold object_literal.
  rewrite (fold_set_property written [] Hnd). simpl.
  unfold own_property_order. rewrite (fold_no_index written [] Hplain). simpl.
  apply forallb_filter_id. apply forallb_forall. intros p Hp.
  now rewrite (Hplain p Hp).
Qed.
